(** * blue-meta: the conversation graph of [app/graph.py] and the session
      endpoints of [app/main.py]

    A shallow embedding of the LangGraph chatbot: messages with their
    dynamically typed [id] attribute, the [AgentState] channels with their
    reducers, the three graph functions [call_llm_node],
    [should_summarize_node], [summarize_conversation_node], the graph wired
    by [create_graph], and the session endpoints backed by the checkpoint
    store. *)

From Stdlib Require Import ZArith String Ascii List Bool Lia DecimalString.
From stdpp Require Import gmap strings.
Import ListNotations.

Local Open Scope string_scope.
Local Open Scope list_scope.
Local Open Scope Z_scope.

(** ** Python values used by the code *)

(** The [id] attribute of a message, as the guards of the code see it: the
    attribute may be missing ([hasattr] is false), hold [None], hold a
    [str], or hold some other value (an [int] stands for those). *)
Inductive py_id : Type :=
| IdAbsent
| IdNone
| IdStr (s : string)
| IdOther (z : Z).

Global Instance py_id_eq_dec : EqDecision py_id.
Proof. solve_decision. Defined.

(** [bool(x)] of an id value that exists. *)
Definition truthy_id (i : py_id) : bool :=
  match i with
  | IdAbsent => false
  | IdNone => false
  | IdStr s => negb (String.eqb s "")
  | IdOther z => negb (Z.eqb z 0)
  end.

(** [bool(s)] of a [str]. *)
Definition truthy_str (s : string) : bool := negb (String.eqb s "").

(** The message classes of [langchain_core.messages] that the code imports
    or can meet in the [messages] channel. *)
Inductive message_class : Type :=
| Human | AI | System | Tool | Remove.

Global Instance message_class_eq_dec : EqDecision message_class.
Proof. solve_decision. Defined.

(** [m.__class__.__name__] *)
Definition class_name (c : message_class) : string :=
  match c with
  | Human => "HumanMessage"
  | AI => "AIMessage"
  | System => "SystemMessage"
  | Tool => "ToolMessage"
  | Remove => "RemoveMessage"
  end.

Record BaseMessage : Type := mkMessage {
  msg_class : message_class;
  content : string;
  id : py_id
}.

Global Instance BaseMessage_eq_dec : EqDecision BaseMessage.
Proof. solve_decision. Defined.

Definition HumanMessage (c : string) : BaseMessage := mkMessage Human c IdNone.
Definition AIMessage (c : string) : BaseMessage := mkMessage AI c IdNone.
Definition SystemMessage (c : string) : BaseMessage := mkMessage System c IdNone.
Definition RemoveMessage (i : py_id) : BaseMessage := mkMessage Remove "" i.

Definition set_id (m : BaseMessage) (i : py_id) : BaseMessage :=
  mkMessage (msg_class m) (content m) i.

(** ** Python list and string operations *)

(** [l[:n]] for any integer [n]: a negative [n] counts from the end, and the
    bound is clipped to the list. *)
Definition slice_to {A : Type} (l : list A) (n : Z) : list A :=
  if n <? 0
  then firstn (Z.to_nat (Z.max 0 (Z.of_nat (length l) + n))) l
  else firstn (Z.to_nat n) l.

Definition newline : string := String (ascii_of_nat 10) EmptyString.

(** [sep.join(l)] is [String.concat sep l]. *)

(** Characters are code points below 256. [c.isspace()] on them: TAB, LF,
    VT, FF, CR, the separators 0x1c to 0x1f, space, NEL and NBSP. *)
Definition is_space (c : ascii) : bool :=
  let n := nat_of_ascii c in
  ((9 <=? n) && (n <=? 13) || (28 <=? n) && (n <=? 32)
   || (n =? 133) || (n =? 160))%nat.

(** [s.lstrip()], [s.rstrip()], [s.strip()] *)
Fixpoint lstrip (s : string) : string :=
  match s with
  | EmptyString => EmptyString
  | String c s' => if is_space c then lstrip s' else s
  end.

Fixpoint rstrip (s : string) : string :=
  match s with
  | EmptyString => EmptyString
  | String c s' =>
      match rstrip s' with
      | EmptyString => if is_space c then EmptyString else String c EmptyString
      | r => String c r
      end
  end.

Definition strip (s : string) : string := rstrip (lstrip s).

(** Observations on a string used to say what trimming achieves. *)
Definition first_char_is_space (s : string) : bool :=
  match s with
  | EmptyString => false
  | String c _ => is_space c
  end.

Fixpoint last_char_is_space (s : string) : bool :=
  match s with
  | EmptyString => false
  | String c EmptyString => is_space c
  | String _ r => last_char_is_space r
  end.

Fixpoint all_space (s : string) : bool :=
  match s with
  | EmptyString => true
  | String c r => is_space c && all_space r
  end.

(** ** Effects: uuid generation, the completion client, exceptions *)

(** What the code draws from outside: how many uuids and how many
    completions have been requested so far. *)
Record World : Type := mkWorld {
  uuid_next : nat;
  llm_next : nat
}.

(** The world after one more uuid, and after one more completion. *)
Definition tick_uuid (w : World) : World := mkWorld (S (uuid_next w)) (llm_next w).
Definition tick_llm (w : World) : World := mkWorld (uuid_next w) (S (llm_next w)).

Inductive exn : Type :=
| CompletionError   (* [llm.invoke] raised *)
| ValueError        (* [add_messages]: delete of an unknown id *)
| AttributeError.   (* [m.id] on an object without the attribute *)

Inductive result (A : Type) : Type :=
| Ok (a : A)
| Raise (e : exn).
Arguments Ok {A} a.
Arguments Raise {A} e.

(** State over [World] with exceptions; the world is not rolled back when
    an exception is raised. *)
Definition M (A : Type) : Type := World -> result A * World.

Definition ret {A} (a : A) : M A := fun w => (Ok a, w).
Definition raise {A} (e : exn) : M A := fun w => (Raise e, w).
Definition bind {A B} (c : M A) (k : A -> M B) : M B :=
  fun w => match c w with
           | (Ok a, w') => k a w'
           | (Raise e, w') => (Raise e, w')
           end.

Notation "'let*' x ':=' c 'in' k" := (bind c (fun x => k))
  (at level 10, x name, c at level 100, k at level 200, only parsing).

(** ** A concrete environment for evaluation *)

(** Pairwise distinct uuid texts. *)
Definition test_uuid4 (n : nat) : string :=
  "u" +:+ String.concat "" (repeat "i" n).

(** A client that always answers, and one that always fails. *)
Definition test_llm (n : nat) (ctx : list BaseMessage) : option (string * py_id) :=
  Some (" ok ", IdNone).


Definition w0 : World := mkWorld 0 0.

Section Graph.

(** [uuid4 n] is the text of the [n]-th uuid the process generates;
    [llm n ctx] is what the [n]-th call of [llm.invoke] returns on the
    context [ctx]: the content and id of an [AIMessage], or [None] when the
    call raises. *)
Variable uuid4 : nat -> string.
Variable llm : nat -> list BaseMessage -> option (string * py_id).

(** [str(uuid.uuid4())] *)
Definition new_uuid : M string :=
  fun w => (Ok (uuid4 (uuid_next w)), mkWorld (S (uuid_next w)) (llm_next w)).

(** [llm.invoke(ctx)] *)
Definition llm_invoke (ctx : list BaseMessage) : M BaseMessage :=
  fun w =>
    let w' := mkWorld (uuid_next w) (S (llm_next w)) in
    match llm (llm_next w) ctx with
    | Some (c, i) => (Ok (mkMessage AI c i), w')
    | None => (Raise CompletionError, w')
    end.

(** ** [ensure_message_has_id] (graph.py) *)

Definition hasattr_id (m : BaseMessage) : bool :=
  match id m with IdAbsent => false | _ => true end.

Definition id_is_none (m : BaseMessage) : bool :=
  match id m with IdNone => true | _ => false end.

Definition isinstance_str (m : BaseMessage) : bool :=
  match id m with IdStr _ => true | _ => false end.

Definition ensure_message_has_id (message : BaseMessage) : M BaseMessage :=
  if negb (hasattr_id message) || id_is_none message || negb (isinstance_str message)
  then let* u := new_uuid in ret (set_id message (IdStr u))
  else ret message.

(** ** The state and its reducers *)

(** Constants for summarization (graph.py). *)
Definition MESSAGES_TO_KEEP_AFTER_SUMMARY : Z := 2.
Definition NEW_MESSAGES_THRESHOLD_FOR_SUMMARY : Z := 10.

(** [AgentState(MessagesState)]: the [messages] channel (reducer
    [add_messages]), the [summary] channel (last value wins; the key is
    missing until something writes it) and the counter
    [messages_since_last_summary], declared [Annotated[int, operator.add]]. *)
Record AgentState : Type := mkState {
  messages : list BaseMessage;
  summary : option string;
  messages_since_last_summary : Z
}.

(** What a node or a caller writes: a dict with some of the three keys. *)
Record Update : Type := mkUpdate {
  upd_messages : option (list BaseMessage);
  upd_summary : option string;
  upd_counter : option Z
}.

(** [state.get("summary", "")] *)
Definition get_summary (state : AgentState) : string :=
  match summary state with Some s => s | None => "" end.

(** The values of a thread that has no checkpoint. *)
Definition empty_state : AgentState := mkState [] None 0.

(** *** [add_messages], the reducer of the [messages] channel

    Messages without an id get one; then every message of [right] replaces
    the message of [left] with its id, or is appended when the id is new; a
    [RemoveMessage] marks its id for deletion and must name an id that
    exists. *)
Fixpoint assign_missing_ids (l : list BaseMessage) : M (list BaseMessage) :=
  match l with
  | [] => ret []
  | m :: l' =>
      match id m with
      | IdAbsent => raise AttributeError
      | IdNone =>
          let* u := new_uuid in
          let* r := assign_missing_ids l' in
          ret (set_id m (IdStr u) :: r)
      | _ =>
          let* r := assign_missing_ids l' in
          ret (m :: r)
      end
  end.

(** [merged_by_id.get(i)]: the dict [{m.id: k for k, m in enumerate(merged)}]
    keeps, for an id that occurs more than once, its last position. *)
Fixpoint merged_by_id (i : py_id) (merged : list BaseMessage) (k : nat) : option nat :=
  match merged with
  | [] => None
  | m :: rest =>
      match merged_by_id i rest (S k) with
      | Some j => Some j
      | None => if decide (id m = i) then Some k else None
      end
  end.

Definition is_remove (m : BaseMessage) : bool :=
  match msg_class m with Remove => true | _ => false end.

Definition id_in (i : py_id) (s : list py_id) : bool :=
  existsb (fun j => bool_decide (j = i)) s.

Definition id_discard (i : py_id) (s : list py_id) : list py_id :=
  List.filter (fun j => negb (bool_decide (j = i))) s.

Fixpoint merge (merged : list BaseMessage) (ids_to_remove : list py_id)
    (right : list BaseMessage) : result (list BaseMessage) :=
  match right with
  | [] => Ok (List.filter (fun m => negb (id_in (id m) ids_to_remove)) merged)
  | m :: right' =>
      match merged_by_id (id m) merged 0 with
      | Some existing_idx =>
          if is_remove m
          then merge merged (id m :: ids_to_remove) right'
          else merge (<[existing_idx := m]> merged)
                     (id_discard (id m) ids_to_remove) right'
      | None =>
          if is_remove m
          then Raise ValueError
          else merge (merged ++ [m]) ids_to_remove right'
      end
  end.

Definition add_messages (left right : list BaseMessage) : M (list BaseMessage) :=
  let* left' := assign_missing_ids left in
  let* right' := assign_missing_ids right in
  fun w => (merge left' [] right', w).

(** Writing an update to the channels: each key that is present goes
    through the reducer of its channel. *)
Definition apply_update (state : AgentState) (u : Update) : M AgentState :=
  let* msgs :=
    match upd_messages u with
    | Some r => add_messages (messages state) r
    | None => ret (messages state)
    end in
  ret (mkState msgs
         (match upd_summary u with Some s => Some s | None => summary state end)
         (match upd_counter u with
          | Some n => messages_since_last_summary state + n
          | None => messages_since_last_summary state
          end)).

(** ** The nodes (graph.py) *)

(** [messages_to_send_to_llm] of [call_llm_node]. *)
Definition llm_context (state : AgentState) : M (list BaseMessage) :=
  let current_messages_in_state := messages state in
  let summary := get_summary state in
  let* with_summary :=
    if truthy_str summary
    then
      let* m := ensure_message_has_id
                  (SystemMessage
                     ("This is a summary of the conversation so far: " +:+ summary)) in
      ret [m]
    else ret [] in
  let messages_to_send_to_llm := with_summary ++ current_messages_in_state in
  match messages_to_send_to_llm with
  | [] =>
      let* m := ensure_message_has_id (HumanMessage "Hello.") in
      ret [m]
  | _ => ret messages_to_send_to_llm
  end.

Definition call_llm_node (state : AgentState) : M Update :=
  let* messages_to_send_to_llm := llm_context state in
  let* response := llm_invoke messages_to_send_to_llm in
  let* r := ensure_message_has_id response in
  ret (mkUpdate (Some [r]) None (Some 1)).

Inductive route : Type :=
| to_summarize_conversation_node
| to_end.

Definition should_summarize_node (state : AgentState) : route :=
  let num_since_last_summary := messages_since_last_summary state in
  if NEW_MESSAGES_THRESHOLD_FOR_SUMMARY <=? num_since_last_summary
  then to_summarize_conversation_node
  else to_end.

(** [isinstance(m, (HumanMessage, AIMessage, SystemMessage))] *)
Definition is_summarizable (m : BaseMessage) : bool :=
  match msg_class m with
  | Human | AI | System => true
  | _ => false
  end.

Definition messages_to_summarize_content_from (state : AgentState) : list BaseMessage :=
  List.filter is_summarizable (messages state).

(** [f"{m.__class__.__name__}: {m.content}"] *)
Definition format_message (m : BaseMessage) : string :=
  class_name (msg_class m) +:+ ": " +:+ content m.

(** [full_prompt] of [summarize_conversation_node]. *)
Definition full_prompt (state : AgentState) : string :=
  let existing_summary := get_summary state in
  let prompt_header :=
    if truthy_str existing_summary
    then "Please extend this summary with the new conversation excerpts below." +:+ newline
    else "Please create a concise summary of the following conversation:" +:+ newline in
  let formatted_messages :=
    String.concat newline
      (map format_message (messages_to_summarize_content_from state)) in
  let full_prompt := prompt_header +:+ formatted_messages in
  if truthy_str existing_summary
  then "Previous Summary:" +:+ newline +:+ existing_summary
         +:+ newline +:+ newline +:+ full_prompt
  else full_prompt.

(** [messages_to_remove] and [delete_directives]. *)
Definition messages_to_remove (state : AgentState) : list BaseMessage :=
  let l := messages_to_summarize_content_from state in
  let num_to_remove := Z.of_nat (length l) - MESSAGES_TO_KEEP_AFTER_SUMMARY in
  slice_to l num_to_remove.

Definition delete_directives (state : AgentState) : list BaseMessage :=
  map (fun m => RemoveMessage (id m))
    (List.filter (fun m => hasattr_id m && truthy_id (id m))
       (messages_to_remove state)).

Definition new_counter_value (state : AgentState) : Z :=
  Z.of_nat (length (messages state)) - Z.of_nat (length (delete_directives state)).

Definition summarize_conversation_node (state : AgentState) : M Update :=
  let* prompt := ensure_message_has_id (HumanMessage (full_prompt state)) in
  let* summary_llm_response := llm_invoke [prompt] in
  let new_summary := strip (content summary_llm_response) in
  ret (mkUpdate (Some (delete_directives state))
         (Some new_summary)
         (Some (new_counter_value state))).

(** ** The graph of [create_graph]

    Entry point [llm_caller]; a conditional edge through
    [should_summarize_node] to [summarize_conversation_node] or END; an edge
    from [summarize_conversation_node] to END. The graph is compiled with a
    checkpointer: the input is written through the reducers and saved, then
    every node's update is written and saved when the node returns. A node
    that raises ends the run and leaves the last saved state in the store. *)
Inductive run_status : Type :=
| ended_after_llm_caller
| ended_after_summarize
| failed (e : exn).

Record Run : Type := mkRun {
  saved : AgentState;       (* the latest checkpoint of the thread *)
  status : run_status
}.

Definition run_node (node : AgentState -> M Update) (state : AgentState) : M AgentState :=
  let* u := node state in apply_update state u.

Definition graph_stream (state : AgentState) (inputs : Update) : World -> Run * World :=
  fun w =>
    match apply_update state inputs w with
    | (Raise e, w0) => (mkRun state (failed e), w0)
    | (Ok s0, w0) =>
        match run_node call_llm_node s0 w0 with
        | (Raise e, w1) => (mkRun s0 (failed e), w1)
        | (Ok s1, w1) =>
            match should_summarize_node s1 with
            | to_end => (mkRun s1 ended_after_llm_caller, w1)
            | to_summarize_conversation_node =>
                match run_node summarize_conversation_node s1 w1 with
                | (Raise e, w2) => (mkRun s1 (failed e), w2)
                | (Ok s2, w2) => (mkRun s2 ended_after_summarize, w2)
                end
            end
        end
    end.

(** ** The session endpoints (main.py) *)

(** The checkpoint store: the latest saved state of every thread. *)
Abbreviation Store := (gmap string AgentState).

(** [graph_app.get_state(config).values] *)
Definition get_state (store : Store) (thread_id : string) : AgentState :=
  match store !! thread_id with
  | Some st => st
  | None => empty_state
  end.

(** [graph_app.update_state(config, values)] *)
Definition update_state (store : Store) (thread_id : string) (values : Update) : M Store :=
  let* st := apply_update (get_state store thread_id) values in
  ret (<[thread_id := st]> store).

Definition DEFAULT_SYSTEM_PROMPT : string :=
  "You are a helpful AI assistant. Be concise and clear in your responses.".

Definition new_assistant (system_prompt : string) (store : Store) : M (string * Store) :=
  let* thread_id := new_uuid in
  let* system_message := ensure_message_has_id (SystemMessage system_prompt) in
  let initial_state := mkUpdate (Some [system_message]) (Some "") (Some 0) in
  let* store' := update_state store thread_id initial_state in
  ret (thread_id, store').

Definition new_session (store : Store) : M (string * Store) :=
  new_assistant DEFAULT_SYSTEM_PROMPT store.

Inductive chat_result : Type :=
| session_not_found             (* HTTP 404 *)
| streamed (s : run_status).

(** [chat] followed by the consumption of [stream_chat_responses]. *)
Definition chat (store : Store) (thread_id : string) (message : string)
    : World -> (chat_result * Store) * World :=
  fun w =>
    let current_state := get_state store thread_id in
    match messages current_state with
    | [] => ((session_not_found, store), w)
    | _ =>
        match ensure_message_has_id (HumanMessage message) w with
        | (Raise e, w0) => ((streamed (failed e), store), w0)
        | (Ok human_message, w0) =>
            let inputs := mkUpdate (Some [human_message]) None None in
            let '(r, w1) := graph_stream current_state inputs w0 in
            ((streamed (status r), <[thread_id := saved r]> store), w1)
        end
    end.

(** What [call_llm_node] does once the context is built. *)
Definition reply_to (ctx : list BaseMessage) : M Update :=
  let* response := llm_invoke ctx in
  let* r := ensure_message_has_id response in
  ret (mkUpdate (Some [r]) None (Some 1)).


(** The summarizable turns split at the retention boundary: all but the
    last [MESSAGES_TO_KEEP_AFTER_SUMMARY], and the rest. *)
Definition old_turns (state : AgentState) : list BaseMessage :=
  let l := messages_to_summarize_content_from state in
  firstn (length l - 2) l.


(** The single turn [summarize_conversation_node] sends to the client. *)
Definition prompt_turn (state : AgentState) (u : string) : BaseMessage :=
  mkMessage Human (full_prompt state) (IdStr u).

(** The fold prompt as the specification words it, for comparison with
    [full_prompt]: the prefix "Previous Summary: {summary}" when the summary
    is not empty, one of the two headers, then the summarizable turns as
    "{role}: {content}" with the roles system, user and assistant. The
    parts are put on lines of their own. *)
Definition role_name (c : message_class) : string :=
  match c with
  | System => "system"
  | Human => "user"
  | AI => "assistant"
  | Tool => "tool"
  | Remove => "remove"
  end.

Definition spec_fold_prompt (state : AgentState) : string :=
  let summary := get_summary state in
  (if truthy_str summary
   then "Previous Summary: " +:+ summary +:+ newline
          +:+ "Please extend this summary with the new conversation excerpts below:"
   else "Please create a concise summary of the following conversation:")
  +:+ newline
  +:+ String.concat newline
        (map (fun m => role_name (msg_class m) +:+ ": " +:+ content m)
           (messages_to_summarize_content_from state)).





(** The synthetic turns [call_llm_node] builds, with the uuid they get. *)
Definition summary_turn (summary u : string) : BaseMessage :=
  mkMessage System ("This is a summary of the conversation so far: " +:+ summary) (IdStr u).

Definition hello_turn (u : string) : BaseMessage :=
  mkMessage Human "Hello." (IdStr u).

(** * Properties *)

(** ** Identity assignment *)

Lemma ensure_message_has_id_spec (m : BaseMessage) (w : World) :
  ensure_message_has_id m w =
  match id m with
  | IdStr _ => (Ok m, w)
  | _ => (Ok (set_id m (IdStr (uuid4 (uuid_next w)))), tick_uuid w)
  end.
Proof.
  unfold ensure_message_has_id, hasattr_id, id_is_none, isinstance_str.
  destruct (id m); reflexivity.
Qed.

(** C7: [ensure_message_has_id] assigns a fresh uuid exactly when the
    message carries no string id (attribute missing, [None], or not a
    [str]) and otherwise returns the message as it is; applied to its own
    output it returns that output unchanged, whatever uuid would come
    next. *)
Theorem ensure_message_has_id_idempotent (m : BaseMessage) (w : World) :
  ensure_message_has_id m w =
    (if isinstance_str m
     then (Ok m, w)
     else (Ok (set_id m (IdStr (uuid4 (uuid_next w)))), tick_uuid w))
  /\ match ensure_message_has_id m w with
     | (Ok m', _) =>
         isinstance_str m' = true
         /\ (isinstance_str m = true -> id m' = id m)
         /\ forall w2, ensure_message_has_id m' w2 = (Ok m', w2)
     | (Raise _, _) => False
     end.
Proof.
  rewrite ensure_message_has_id_spec. unfold isinstance_str.
  destruct (id m) eqn:E; simpl; (split; [reflexivity|]);
    rewrite ?E; repeat split; try congruence;
    intros w2; rewrite ensure_message_has_id_spec; simpl; rewrite ?E; reflexivity.
Qed.

(** ** The reducer of the [messages] channel *)





Lemma assign_missing_ids_unchanged (l : list BaseMessage) (w : World) :
  forallb isinstance_str l = true -> assign_missing_ids l w = (Ok l, w).
Proof.
  induction l as [|m r IH]; simpl; intros H; [reflexivity|].
  apply andb_true_iff in H as [Hm Hr].
  unfold isinstance_str in Hm.
  destruct (id m); try discriminate.
  unfold bind. rewrite (IH Hr). reflexivity.
Qed.



Lemma filter_no_removals (l : list BaseMessage) :
  List.filter (fun m => negb (id_in (id m) [])) l = l.
Proof. induction l as [|m r IH]; simpl; [reflexivity|]. f_equal. exact IH. Qed.



(** ** Generate: [call_llm_node] *)

Lemma llm_context_spec (st : AgentState) (w : World) :
  llm_context st w =
  if truthy_str (get_summary st)
  then (Ok (summary_turn (get_summary st) (uuid4 (uuid_next w)) :: messages st), tick_uuid w)
  else match messages st with
       | [] => (Ok [hello_turn (uuid4 (uuid_next w))], tick_uuid w)
       | _ :: _ => (Ok (messages st), w)
       end.
Proof.
  unfold llm_context, bind, ret.
  destruct (truthy_str (get_summary st)); cbv beta.
  - rewrite ensure_message_has_id_spec. reflexivity.
  - simpl. destruct (messages st); reflexivity.
Qed.

Lemma call_llm_node_reply (st : AgentState) (w : World) :
  call_llm_node st w = (let* ctx := llm_context st in reply_to ctx) w.
Proof. reflexivity. Qed.

Lemma reply_to_update (ctx : list BaseMessage) (w w' : World) (u : Update) :
  reply_to ctx w = (Ok u, w') ->
  upd_counter u = Some 1 /\ upd_summary u = None
  /\ exists r, upd_messages u = Some [r] /\ msg_class r = AI /\ isinstance_str r = true.
Proof.
  unfold reply_to, bind, ret, llm_invoke.
  destruct (llm (llm_next w) ctx) as [[c i]|]; [|discriminate].
  rewrite ensure_message_has_id_spec.
  destruct i; simpl; intros H; inversion H; subst; simpl;
    repeat split; eexists; repeat split.
Qed.

Lemma reply_to_raises (ctx : list BaseMessage) (w w' : World) (e : exn) :
  reply_to ctx w = (Raise e, w') -> e = CompletionError.
Proof.
  unfold reply_to, bind, ret, llm_invoke.
  destruct (llm (llm_next w) ctx) as [[c i]|]; [|congruence].
  rewrite ensure_message_has_id_spec. destruct i; discriminate.
Qed.

(** C10: on a state with an empty summary and an empty ledger the context
    of [call_llm_node] is the single user turn "Hello." (with a fresh id),
    and this one-turn context is what the completion client is called
    with: the client never receives an empty sequence. *)
Theorem call_llm_node_empty_state (st : AgentState) (w : World) :
  get_summary st = "" ->
  messages st = [] ->
  llm_context st w = (Ok [hello_turn (uuid4 (uuid_next w))], tick_uuid w)
  /\ call_llm_node st w = reply_to [hello_turn (uuid4 (uuid_next w))] (tick_uuid w).
Proof.
  intros Hs Hm.
  assert (E : llm_context st w = (Ok [hello_turn (uuid4 (uuid_next w))], tick_uuid w)).
  { rewrite llm_context_spec, Hs, Hm. reflexivity. }
  split; [exact E|].
  rewrite call_llm_node_reply. unfold bind at 1. now rewrite E.
Qed.

(** C8: on a state whose ledger is not empty (the Generate transition always
    runs on a ledger that holds at least the user's turn) the context sent
    to the completion client is the ledger in order, preceded by a system
    turn with the text "This is a summary of the conversation so far: "
    followed by the summary exactly when the summary is not empty; the
    update the node returns holds only the assistant's reply, so the
    synthetic turn never enters the ledger. *)
Theorem call_llm_node_context (st : AgentState) (w : World) :
  messages st <> [] ->
  let prefix :=
    if truthy_str (get_summary st)
    then [summary_turn (get_summary st) (uuid4 (uuid_next w))]
    else [] in
  let w1 := if truthy_str (get_summary st) then tick_uuid w else w in
  llm_context st w = (Ok (prefix ++ messages st), w1)
  /\ call_llm_node st w = reply_to (prefix ++ messages st) w1
  /\ match call_llm_node st w with
     | (Ok u, _) =>
         upd_summary u = None
         /\ exists r, upd_messages u = Some [r] /\ msg_class r = AI
     | (Raise e, _) => e = CompletionError
     end.
Proof.
  intros Hne prefix w1.
  assert (E : llm_context st w = (Ok (prefix ++ messages st), w1)).
  { rewrite llm_context_spec. subst prefix w1.
    destruct (truthy_str (get_summary st)); [reflexivity|].
    destruct (messages st); [contradiction|reflexivity]. }
  assert (E2 : call_llm_node st w = reply_to (prefix ++ messages st) w1).
  { rewrite call_llm_node_reply. unfold bind at 1. now rewrite E. }
  split; [exact E|]. split; [exact E2|].
  rewrite E2.
  destruct (reply_to (prefix ++ messages st) w1) as [[u|e] w2] eqn:R.
  - apply reply_to_update in R as (_ & Hs & r & Hr & Hc & _).
    split; [exact Hs|]. exists r. now split.
  - now apply reply_to_raises in R.
Qed.

(** ** The channels under an update *)

Lemma apply_update_fields (st st' : AgentState) (u : Update) (w w' : World) :
  apply_update st u w = (Ok st', w') ->
  summary st' = match upd_summary u with Some s => Some s | None => summary st end
  /\ messages_since_last_summary st' =
       messages_since_last_summary st + match upd_counter u with Some n => n | None => 0 end.
Proof.
  unfold apply_update, bind, ret.
  destruct (upd_messages u) as [r|].
  - destruct (add_messages (messages st) r w) as [[l|e] w1]; [|discriminate].
    intros H; inversion H; subst; simpl. split; [reflexivity|].
    destruct (upd_counter u); lia.
  - intros H; inversion H; subst; simpl. split; [reflexivity|].
    destruct (upd_counter u); lia.
Qed.

Lemma run_call_llm_node_fields (s0 s1 : AgentState) (w0 w1 : World) :
  run_node call_llm_node s0 w0 = (Ok s1, w1) ->
  summary s1 = summary s0
  /\ messages_since_last_summary s1 = messages_since_last_summary s0 + 1.
Proof.
  unfold run_node. unfold bind at 1.
  destruct (call_llm_node s0 w0) as [[u|e] w] eqn:C; [|discriminate].
  rewrite call_llm_node_reply in C. unfold bind in C.
  destruct (llm_context s0 w0) as [[ctx|e] wc]; [|discriminate].
  apply reply_to_update in C as (Hc & Hs & _).
  intros H. apply apply_update_fields in H. rewrite Hc, Hs in H. exact H.
Qed.

(** The ledger [call_llm_node] works on is never empty when the input of
    the run carries a turn, as the input of [chat] does. *)
Lemma merge_turn_not_empty (l : list BaseMessage) (m : BaseMessage) (r : list BaseMessage) :
  is_remove m = false -> merge l [] [m] = Ok r -> r <> [].
Proof.
  intros Hr. simpl. rewrite Hr.
  destruct (merged_by_id (id m) l 0) as [k|] eqn:E.
  - rewrite filter_no_removals. intros H; inversion H; subst.
    destruct l as [|x xs]; [discriminate|].
    intros N. apply (f_equal (@length BaseMessage)) in N.
    rewrite length_insert in N. discriminate.
  - rewrite filter_no_removals. intros H; inversion H; subst.
    destruct l; discriminate.
Qed.

Lemma input_ledger_not_empty (st s0 : AgentState) (m : BaseMessage) (w w' : World) :
  is_remove m = false ->
  apply_update st (mkUpdate (Some [m]) None None) w = (Ok s0, w') ->
  messages s0 <> [].
Proof.
  intros Hr. unfold apply_update, add_messages, bind, ret.
  cbn [upd_messages upd_summary upd_counter].
  destruct (assign_missing_ids (messages st) w) as [[l'|e] w1]; [|discriminate].
  simpl assign_missing_ids. unfold bind, ret, raise, new_uuid.
  destruct (id m) eqn:Hid; try discriminate.
  - destruct (merge l' [] [set_id m _]) as [r|e] eqn:Mg; [|discriminate].
    intros H; inversion H; subst; simpl.
    now apply (merge_turn_not_empty l' (set_id m (IdStr (uuid4 (uuid_next w1))))).
  - destruct (merge l' [] [m]) as [r|e] eqn:Mg; [|discriminate].
    intros H; inversion H; subst; simpl.
    now apply (merge_turn_not_empty l' m).
  - destruct (merge l' [] [m]) as [r|e] eqn:Mg; [|discriminate].
    intros H; inversion H; subst; simpl.
    now apply (merge_turn_not_empty l' m).
Qed.

(** ** Decide: [should_summarize_node] *)

Lemma should_summarize_node_spec (st : AgentState) :
  should_summarize_node st =
  if 10 <=? messages_since_last_summary st
  then to_summarize_conversation_node else to_end.
Proof. reflexivity. Qed.



(** ** Session creation *)

(** C9: creating a session with a system prompt under a thread id that the
    store does not hold yet, and reading the state of that thread back,
    gives exactly one turn, of class system with the prompt as content, an
    empty summary and a counter of 0. *)
Theorem new_assistant_round_trip (system_prompt : string) (store : Store) (w : World) :
  store !! uuid4 (uuid_next w) = None ->
  exists thread_id store' w',
    new_assistant system_prompt store w = (Ok (thread_id, store'), w')
    /\ get_state store' thread_id =
       mkState [mkMessage System system_prompt (IdStr (uuid4 (S (uuid_next w))))]
               (Some "") 0.
Proof.
  intros Hfresh.
  exists (uuid4 (uuid_next w)).
  eexists. eexists.
  unfold new_assistant, update_state, get_state, bind, ret, new_uuid.
  rewrite ensure_message_has_id_spec. simpl.
  rewrite Hfresh. simpl.
  split; [reflexivity|].
  unfold get_state. now rewrite lookup_insert_eq.
Qed.

(** ** Writing turns to the ledger *)



(** ** Failure of the completion client during Generate *)


(** ** Compact: [summarize_conversation_node] *)

Lemma summarize_conversation_node_spec (st : AgentState) (w : World) :
  summarize_conversation_node st w =
  match llm (llm_next w) [prompt_turn st (uuid4 (uuid_next w))] with
  | Some (c, _) =>
      (Ok (mkUpdate (Some (delete_directives st)) (Some (strip c))
             (Some (new_counter_value st))),
       tick_llm (tick_uuid w))
  | None => (Raise CompletionError, tick_llm (tick_uuid w))
  end.
Proof.
  unfold summarize_conversation_node, bind, ret.
  rewrite ensure_message_has_id_spec. simpl id. cbv iota.
  unfold llm_invoke. simpl llm_next. simpl uuid_next.
  change (set_id (HumanMessage (full_prompt st)) (IdStr (uuid4 (uuid_next w))))
    with (prompt_turn st (uuid4 (uuid_next w))).
  destruct (llm (llm_next w) [prompt_turn st (uuid4 (uuid_next w))]) as [[c i]|];
    reflexivity.
Qed.

Lemma messages_to_remove_old (st : AgentState) : messages_to_remove st = old_turns st.
Proof.
  unfold messages_to_remove, old_turns, slice_to, MESSAGES_TO_KEEP_AFTER_SUMMARY.
  set (l := messages_to_summarize_content_from st).
  destruct (Z.ltb_spec (Z.of_nat (length l) - 2) 0); f_equal; lia.
Qed.










(** What the counter holds after Compact: the reducer of the channel is
    addition, so the value the node returns is added to the old one. *)
Lemma run_summarize_counter (st st' : AgentState) (w w' : World) :
  run_node summarize_conversation_node st w = (Ok st', w') ->
  messages_since_last_summary st'
  = messages_since_last_summary st + new_counter_value st.
Proof.
  unfold run_node. unfold bind at 1. rewrite summarize_conversation_node_spec.
  destruct (llm _ _) as [[c i]|]; [|discriminate].
  intros H. apply apply_update_fields in H as [_ H]. exact H.
Qed.

(** ** The fold prompt and the trimmed summary *)

Lemma append_cons (c : ascii) (a b : string) : String c a +:+ b = String c (a +:+ b).
Proof. reflexivity. Qed.

Lemma append_assoc (a b c : string) : (a +:+ b) +:+ c = a +:+ b +:+ c.
Proof.
  induction a as [|x a IH]; [reflexivity|].
  rewrite !append_cons. now f_equal.
Qed.

Lemma lstrip_spec (s : string) :
  exists a, s = a +:+ lstrip s /\ all_space a = true
            /\ first_char_is_space (lstrip s) = false.
Proof.
  induction s as [|c s IH]; simpl.
  - exists EmptyString. now repeat split.
  - destruct (is_space c) eqn:E.
    + destruct IH as (a & Ha & Hs & Hf). exists (String c a).
      rewrite append_cons, <- Ha. simpl. rewrite E. now repeat split.
    + exists EmptyString. simpl. rewrite E. now repeat split.
Qed.

Lemma rstrip_spec (s : string) :
  exists b, s = rstrip s +:+ b /\ all_space b = true
            /\ last_char_is_space (rstrip s) = false.
Proof.
  induction s as [|c s IH]; simpl.
  - exists EmptyString. now repeat split.
  - destruct IH as (b & Hb & Hs & Hl).
    destruct (rstrip s) as [|d r] eqn:R.
    + change (s = b) in Hb. subst b.
      destruct (is_space c) eqn:E.
      * exists (String c s). simpl. rewrite E. now repeat split.
      * exists s. simpl. rewrite E. now repeat split.
    + exists b. rewrite append_cons, <- Hb. now repeat split.
Qed.

Lemma rstrip_first_char (s : string) :
  first_char_is_space s = false -> first_char_is_space (rstrip s) = false.
Proof.
  destruct s as [|c s]; simpl; [auto|]. intros E.
  destruct (rstrip s); [rewrite E|]; simpl; auto.
Qed.

(** [strip] removes a run of whitespace at each end, and nothing else. *)
Lemma strip_spec (s : string) :
  first_char_is_space (strip s) = false
  /\ last_char_is_space (strip s) = false
  /\ exists a b, s = a +:+ strip s +:+ b /\ all_space a = true /\ all_space b = true.
Proof.
  unfold strip.
  destruct (lstrip_spec s) as (a & Ha & Hsa & Hf).
  destruct (rstrip_spec (lstrip s)) as (b & Hb & Hsb & Hl).
  split; [now apply rstrip_first_char|]. split; [assumption|].
  exists a, b. rewrite <- Hb. now repeat split.
Qed.

(** C4, as the code has it: the prompt starts with "Previous Summary:", a
    line break, the summary and an empty line exactly when the summary is
    not empty; then comes the header line ("Please extend this summary with
    the new conversation excerpts below." for a non-empty summary, "Please
    create a concise summary of the following conversation:" otherwise);
    then one line per summarizable turn, in ledger order, of the form class
    name, colon, space, content, where the class name is HumanMessage,
    AIMessage or SystemMessage. The client is called with this prompt as a
    single user turn, and the new summary is the answer with the
    whitespace at both ends removed. *)
Theorem summarize_prompt_and_summary (st : AgentState) (w : World) :
  full_prompt st =
    (if truthy_str (get_summary st)
     then "Previous Summary:" +:+ newline +:+ get_summary st +:+ newline +:+ newline
            +:+ "Please extend this summary with the new conversation excerpts below."
            +:+ newline
     else "Please create a concise summary of the following conversation:" +:+ newline)
    +:+ String.concat newline
          (map (fun m => class_name (msg_class m) +:+ ": " +:+ content m)
             (List.filter is_summarizable (messages st)))
  /\ summarize_conversation_node st w =
     match llm (llm_next w)
             [mkMessage Human (full_prompt st) (IdStr (uuid4 (uuid_next w)))] with
     | Some (c, _) =>
         (Ok (mkUpdate (Some (delete_directives st)) (Some (strip c))
                (Some (new_counter_value st))),
          tick_llm (tick_uuid w))
     | None => (Raise CompletionError, tick_llm (tick_uuid w))
     end
  /\ forall c : string,
       first_char_is_space (strip c) = false
       /\ last_char_is_space (strip c) = false
       /\ exists a b, c = a +:+ strip c +:+ b
                      /\ all_space a = true /\ all_space b = true.
Proof.
  split; [|split].
  - unfold full_prompt, messages_to_summarize_content_from, format_message.
    destruct (truthy_str (get_summary st)).
    + now rewrite !append_assoc.
    + reflexivity.
  - apply summarize_conversation_node_spec.
  - apply strip_spec.
Qed.

End Graph.

(** * Evaluation on concrete sessions *)

(** A session created with the prompt "You are terse." in an empty store:
    the thread id is the first uuid, the id of the system turn the second. *)
Definition terse_turn : BaseMessage :=
  mkMessage System "You are terse." (IdStr (test_uuid4 1)).

Definition terse_state : AgentState := mkState [terse_turn] (Some "") 0.

Definition terse_store : gmap string AgentState := <[test_uuid4 0 := terse_state]> ∅.

Definition terse_world : World := mkWorld 2 0.

(** [n] chat calls "Hi" in a row on one thread. *)
Fixpoint chat_times (llm : nat -> list BaseMessage -> option (string * py_id))
    (n : nat) (store : gmap string AgentState) (thread_id : string) (w : World)
    : gmap string AgentState * World :=
  match n with
  | O => (store, w)
  | S k =>
      let '(_, store', w') := chat test_uuid4 llm store thread_id "Hi" w in
      chat_times llm k store' thread_id w'
  end.

(** The state of the terse session after [n] answered chat calls. *)
Definition terse_after (n : nat) : AgentState :=
  get_state (fst (chat_times test_llm n terse_store (test_uuid4 0) terse_world))
    (test_uuid4 0).

(** A ledger with a turn that is not summarizable, a summary and a counter
    at the threshold. *)
Definition mixed_state : AgentState :=
  mkState
    [ mkMessage System "Be brief." (IdStr "s");
      mkMessage Human "q1" (IdStr "h1");
      mkMessage AI "a1" (IdStr "a1");
      mkMessage Tool "t" (IdStr "t1");
      mkMessage Human "q2" (IdStr "h2");
      mkMessage AI "a2" (IdStr "a2") ]
    (Some "S") 10.

(** One user turn under a summary. *)
Definition summarized_state : AgentState :=
  mkState [mkMessage Human "hi" (IdStr "a")] (Some "S") 10.



Example terse_session_created :
  new_assistant test_uuid4 "You are terse." ∅ w0
  = (Ok (test_uuid4 0, terse_store), terse_world).
Proof. vm_compute. reflexivity. Qed.

Example terse_after_nine :
  (length (messages (terse_after 9)), summary (terse_after 9),
   messages_since_last_summary (terse_after 9))
  = (19%nat, Some "", 9).
Proof. vm_compute. reflexivity. Qed.

(** C1: the counter is not reset by Compact. In the terse session the tenth
    answered chat call reaches the threshold with 21 turns and counter 10;
    Compact leaves 2 turns in the ledger and returns 2 as the new counter
    value, but the channel adds it to the old value, and the counter reads
    12. The same on [mixed_state]: 3 turns survive and the counter goes from
    10 to 13. *)
Theorem compact_counter_accumulates :
  (length (messages (terse_after 10)), messages_since_last_summary (terse_after 10))
  = (2%nat, 12)
  /\ match run_node test_uuid4 (summarize_conversation_node test_uuid4 test_llm)
             mixed_state w0 with
     | (Ok st', _) =>
         new_counter_value mixed_state = 3
         /\ length (messages st') = 3%nat
         /\ messages_since_last_summary st' = 13
     | (Raise _, _) => False
     end.
Proof. split; vm_compute; repeat split; reflexivity. Qed.

Lemma call_llm_node_empty_state_witness :
  get_summary empty_state = "" /\ messages empty_state = []
  /\ llm_context test_uuid4 empty_state w0
     = (Ok [hello_turn (test_uuid4 0)], tick_uuid w0).
Proof.
  split; [reflexivity|]. split; [reflexivity|].
  exact (proj1 (call_llm_node_empty_state test_uuid4 test_llm empty_state w0
                  eq_refl eq_refl)).
Defined.

Lemma call_llm_node_context_witness :
  messages mixed_state <> []
  /\ llm_context test_uuid4 mixed_state w0
     = (Ok (summary_turn "S" (test_uuid4 0) :: messages mixed_state), tick_uuid w0).
Proof.
  assert (H : messages mixed_state <> []) by (simpl; discriminate).
  split; [exact H|].
  exact (proj1 (call_llm_node_context test_uuid4 test_llm mixed_state w0 H)).
Defined.



Lemma new_assistant_round_trip_witness :
  (∅ : gmap string AgentState) !! test_uuid4 (uuid_next w0) = None
  /\ exists thread_id store' w',
       new_assistant test_uuid4 "You are terse." ∅ w0 = (Ok (thread_id, store'), w')
       /\ get_state store' thread_id = terse_state.
Proof.
  split; [reflexivity|].
  exact (new_assistant_round_trip test_uuid4 "You are terse." ∅ w0 eq_refl).
Defined.


Example compact_mixed_state :
  old_turns mixed_state = firstn 3 (messages mixed_state)
  /\ fst (run_node test_uuid4 (summarize_conversation_node test_uuid4 test_llm)
            mixed_state w0)
     = Ok (mkState
             [ mkMessage Tool "t" (IdStr "t1");
               mkMessage Human "q2" (IdStr "h2");
               mkMessage AI "a2" (IdStr "a2") ]
             (Some "ok") 13).
Proof. split; vm_compute; reflexivity. Qed.



(** The claim of C4 fails on [summarized_state]: the prompt of the code does
    not start with "Previous Summary: S", names the turn by its class and
    not by its role, and is not the prompt the specification words. *)
Lemma full_prompt_differs_from_spec :
  full_prompt summarized_state
  = "Previous Summary:" +:+ newline +:+ "S" +:+ newline +:+ newline
      +:+ "Please extend this summary with the new conversation excerpts below."
      +:+ newline +:+ "HumanMessage: hi"
  /\ String.prefix "Previous Summary: S" (full_prompt summarized_state) = false
  /\ spec_fold_prompt summarized_state
     = "Previous Summary: S" +:+ newline
         +:+ "Please extend this summary with the new conversation excerpts below:"
         +:+ newline +:+ "user: hi"
  /\ full_prompt summarized_state <> spec_fold_prompt summarized_state.
Proof.
  split; [vm_compute; reflexivity|].
  split; [vm_compute; reflexivity|].
  split; [vm_compute; reflexivity|].
  apply String.eqb_neq. vm_compute. reflexivity.
Qed.

(** * Further properties of the graph *)


Section GraphLaws.

Variable uuid4 : nat -> string.
Variable llm : nat -> list BaseMessage -> option (string * py_id).

(** X1: The context [call_llm_node] builds is never empty, whatever the state,
    and building it calls the client not once. *)
Theorem llm_context_not_empty (st : AgentState) (w : World) :
  exists ctx w',
    llm_context uuid4 st w = (Ok ctx, w') /\ ctx <> [] /\ llm_next w' = llm_next w.
Proof.
  rewrite llm_context_spec.
  destruct (truthy_str (get_summary st)).
  - eexists. eexists. split; [reflexivity|]. split; [discriminate|reflexivity].
  - destruct (messages st) as [|m l] eqn:E.
    + eexists. eexists. split; [reflexivity|]. split; [discriminate|reflexivity].
    + eexists. eexists. split; [reflexivity|]. split; [discriminate|reflexivity].
Qed.

Lemma delete_directives_length (st : AgentState) :
  (length (delete_directives st) <= length (old_turns st))%nat.
Proof.
  unfold delete_directives. rewrite messages_to_remove_old.
  rewrite length_map. apply filter_length_le.
Qed.


Lemma new_counter_value_nonneg (st : AgentState) : 0 <= new_counter_value st.
Proof.
  unfold new_counter_value.
  pose proof (delete_directives_length st) as H.
  assert (length (old_turns st) <= length (messages st))%nat; [|lia].
  unfold old_turns, messages_to_summarize_content_from.
  rewrite length_firstn.
  pose proof (filter_length_le is_summarizable (messages st)). lia.
Qed.



(** X4: With at most two summarizable turns Compact deletes nothing: the
    negative bound of the slice selects no turn. The ledger stays as it is,
    only the summary is replaced, and the whole ledger length is added to
    the counter. *)
Theorem compact_short_ledger (st : AgentState) (w : World) (c : string) (i : py_id) :
  (length (messages_to_summarize_content_from st) <= 2)%nat ->
  forallb isinstance_str (messages st) = true ->
  llm (llm_next w) [prompt_turn st (uuid4 (uuid_next w))] = Some (c, i) ->
  delete_directives st = []
  /\ run_node uuid4 (summarize_conversation_node uuid4 llm) st w =
     (Ok (mkState (messages st) (Some (strip c))
            (messages_since_last_summary st + Z.of_nat (length (messages st)))),
      tick_llm (tick_uuid w)).
Proof.
  intros Hlen Hs Hllm.
  assert (Hold : old_turns st = []).
  { unfold old_turns. replace (_ - 2)%nat with 0%nat by lia. reflexivity. }
  assert (Hd : delete_directives st = []).
  { unfold delete_directives. now rewrite messages_to_remove_old, Hold. }
  split; [exact Hd|].
  unfold run_node, bind. rewrite summarize_conversation_node_spec, Hllm.
  unfold apply_update, add_messages, bind, ret.
  cbn [upd_messages upd_summary upd_counter]. rewrite Hd.
  rewrite (assign_missing_ids_unchanged uuid4 _ _ Hs). simpl.
  rewrite filter_no_removals.
  unfold new_counter_value. rewrite Hd. simpl. now rewrite Z.sub_0_r.
Qed.

End GraphLaws.

Section CounterLaws.

Variable uuid4 : nat -> string.
Variable llm : nat -> list BaseMessage -> option (string * py_id).




Lemma chat_not_found (store : gmap string AgentState) (thread_id message : string) (w : World) :
  messages (get_state store thread_id) = [] ->
  chat uuid4 llm store thread_id message w = ((session_not_found, store), w).
Proof. intros H. unfold chat. now rewrite H. Qed.

Lemma chat_runs_graph (store : gmap string AgentState) (thread_id message : string) (w : World) :
  messages (get_state store thread_id) <> [] ->
  chat uuid4 llm store thread_id message w =
  let r := graph_stream uuid4 llm (get_state store thread_id)
             (mkUpdate (Some [mkMessage Human message (IdStr (uuid4 (uuid_next w)))])
                None None)
             (tick_uuid w) in
  ((streamed (status (fst r)), <[thread_id := saved (fst r)]> store), snd r).
Proof.
  intros H. unfold chat.
  destruct (messages (get_state store thread_id)) as [|m0 l0]; [contradiction|].
  rewrite ensure_message_has_id_spec. simpl id. cbv iota.
  change (set_id (HumanMessage message) (IdStr (uuid4 (uuid_next w))))
    with (mkMessage Human message (IdStr (uuid4 (uuid_next w)))).
  destruct (graph_stream _ _ _ _ _) as [r w1]. reflexivity.
Qed.

Lemma graph_stream_counter_mono (st : AgentState) (msgs : list BaseMessage) (w : World) :
  messages_since_last_summary st
  <= messages_since_last_summary
       (saved (fst (graph_stream uuid4 llm st (mkUpdate (Some msgs) None None) w))).
Proof.
  unfold graph_stream.
  destruct (apply_update _ _ _ _) as [[s0|e] wa] eqn:I; [|simpl; lia].
  apply apply_update_fields in I as [_ I]. simpl in I.
  destruct (run_node uuid4 (call_llm_node uuid4 llm) s0 wa) as [[s1|e] wb] eqn:N;
    [|simpl; lia].
  apply run_call_llm_node_fields in N as [_ N].
  destruct (should_summarize_node s1); [|simpl; lia].
  destruct (run_node uuid4 (summarize_conversation_node uuid4 llm) s1 wb)
    as [[s2|e] wc] eqn:S; [|simpl; lia].
  apply run_summarize_counter in S. pose proof (new_counter_value_nonneg s1).
  simpl. lia.
Qed.

(** X6: No chat call, whether it succeeds, fails or finds no session, ever
    lowers the counter of its thread: Generate adds one, and Compact adds
    what it means to reset the counter to. *)
Theorem chat_counter_never_decreases
    (store : gmap string AgentState) (thread_id message : string) (w : World) :
  messages_since_last_summary (get_state store thread_id)
  <= messages_since_last_summary
       (get_state (snd (fst (chat uuid4 llm store thread_id message w))) thread_id).
Proof.
  destruct (messages (get_state store thread_id)) as [|m0 l0] eqn:E.
  - rewrite chat_not_found by assumption. simpl. lia.
  - rewrite chat_runs_graph by (rewrite E; discriminate).
    cbv zeta. cbn [fst snd]. unfold get_state at 2. rewrite lookup_insert_eq.
    apply graph_stream_counter_mono.
Qed.

(** X7: Once the counter of a session is 9 or more, no chat call on it ends
    after Generate alone: every call whose completion succeeds goes on to
    Compact. Together with the counter never decreasing, a session that has
    reached the threshold summarizes on every later call. *)
Theorem chat_compacts_again
    (store : gmap string AgentState) (thread_id message : string) (w : World) :
  9 <= messages_since_last_summary (get_state store thread_id) ->
  fst (fst (chat uuid4 llm store thread_id message w)) <> streamed ended_after_llm_caller.
Proof.
  intros H9.
  destruct (messages (get_state store thread_id)) as [|m0 l0] eqn:E.
  - rewrite chat_not_found by assumption. discriminate.
  - rewrite chat_runs_graph by (rewrite E; discriminate).
    cbv zeta. cbn [fst snd]. unfold graph_stream.
    destruct (apply_update _ _ _ _) as [[s0|e] wa] eqn:I; [|discriminate].
    apply apply_update_fields in I as [_ I]. simpl in I.
    destruct (run_node uuid4 (call_llm_node uuid4 llm) s0 wa) as [[s1|e] wb] eqn:N;
      [|discriminate].
    apply run_call_llm_node_fields in N as [_ N].
    rewrite should_summarize_node_spec.
    destruct (Z.leb_spec 10 (messages_since_last_summary s1)); [|lia].
    destruct (run_node uuid4 (summarize_conversation_node uuid4 llm) s1 wb)
      as [[s2|e] wc]; discriminate.
Qed.



End CounterLaws.

(** * The session endpoints and the checkpoint database (main.py) *)

(** The database file as [get_db_connection] and the queries see it: it
    cannot be opened, it has no [checkpoints] table yet, or it holds the
    checkpoints of some threads. *)
Inductive database : Type :=
| db_missing
| db_without_table
| db_checkpoints (store : gmap string AgentState).

(** [get_db_connection]: [None] on [sqlite3.OperationalError]. *)
Definition get_db_connection (db : database) : option database :=
  match db with
  | db_missing => None
  | _ => Some db
  end.

(** [list_sessions]: the distinct thread ids of the [checkpoints] table (the
    query fixes no order); the empty list when there is no connection or
    the query raises [sqlite3.OperationalError]. *)
Definition list_sessions (db : database) : gset string :=
  match get_db_connection db with
  | None => ∅
  | Some conn =>
      match conn with
      | db_checkpoints store => dom store
      | _ => ∅
      end
  end.

Section Sessions.

Variable uuid4 : nat -> string.
Variable llm : nat -> list BaseMessage -> option (string * py_id).

Lemma ledger_known (store : gmap string AgentState) (thread_id : string) :
  messages (get_state store thread_id) <> [] -> thread_id ∈ dom store.
Proof.
  unfold get_state. intros H. apply elem_of_dom.
  destruct (store !! thread_id) as [st|]; [eauto|]. now contradiction H.
Qed.

(** X9: A chat call on a thread without checkpoint answers "Session not
    found": the store is left as it is, no uuid is drawn and the client is
    not called. *)
Theorem chat_unknown_thread
    (store : gmap string AgentState) (thread_id message : string) (w : World) :
  store !! thread_id = None ->
  chat uuid4 llm store thread_id message w = ((session_not_found, store), w).
Proof.
  intros H. apply chat_not_found. unfold get_state. now rewrite H.
Qed.

(** X10: A chat call never creates or removes a session, whatever its outcome:
    the thread ids [list_sessions] reports are the same before and after. *)
Theorem chat_keeps_sessions
    (store : gmap string AgentState) (thread_id message : string) (w : World) :
  list_sessions (db_checkpoints (snd (fst (chat uuid4 llm store thread_id message w))))
  = list_sessions (db_checkpoints store).
Proof.
  unfold list_sessions, get_db_connection.
  destruct (messages (get_state store thread_id)) as [|m0 l0] eqn:E.
  - now rewrite chat_not_found.
  - assert (Hne : messages (get_state store thread_id) <> [])
      by (rewrite E; discriminate).
    rewrite chat_runs_graph by assumption. cbv zeta. cbn [fst snd].
    rewrite dom_insert_L. apply ledger_known in Hne.
    apply subseteq_union_1_L. now apply singleton_subseteq_l.
Qed.

(** X11: A chat call touches no thread but its own: with the called thread
    taken out, the store is the same before and after. *)
Theorem chat_isolates_threads
    (store : gmap string AgentState) (thread_id message : string) (w : World) :
  delete thread_id (snd (fst (chat uuid4 llm store thread_id message w)))
  = delete thread_id store.
Proof.
  destruct (messages (get_state store thread_id)) as [|m0 l0] eqn:E.
  - now rewrite chat_not_found.
  - rewrite chat_runs_graph by (rewrite E; discriminate). cbv zeta. cbn [fst snd].
    apply delete_insert_eq.
Qed.

Lemma new_assistant_fresh (system_prompt : string) (store : gmap string AgentState) (w : World) :
  store !! uuid4 (uuid_next w) = None ->
  new_assistant uuid4 system_prompt store w =
  (Ok (uuid4 (uuid_next w),
       <[uuid4 (uuid_next w) :=
           mkState [mkMessage System system_prompt (IdStr (uuid4 (S (uuid_next w))))]
             (Some "") 0]> store),
   tick_uuid (tick_uuid w)).
Proof.
  intros Hfresh.
  unfold new_assistant, update_state, get_state, bind, ret, new_uuid.
  rewrite ensure_message_has_id_spec. simpl. rewrite Hfresh. reflexivity.
Qed.

(** X12: Creating a session under a thread id the store does not hold yet adds
    exactly this id to the sessions [list_sessions] reports and leaves
    every other thread's state as it was. *)
Theorem new_assistant_adds_session
    (system_prompt : string) (store : gmap string AgentState) (w : World) :
  store !! uuid4 (uuid_next w) = None ->
  exists store' w',
    new_assistant uuid4 system_prompt store w = (Ok (uuid4 (uuid_next w), store'), w')
    /\ list_sessions (db_checkpoints store')
       = {[uuid4 (uuid_next w)]} ∪ list_sessions (db_checkpoints store)
    /\ delete (uuid4 (uuid_next w)) store' = store
    /\ llm_next w' = llm_next w.
Proof.
  intros Hfresh. eexists. eexists.
  split; [now apply new_assistant_fresh|].
  simpl. split; [apply dom_insert_L|].
  split; [|reflexivity].
  rewrite delete_insert_eq. now apply delete_id.
Qed.

End Sessions.

(** * The terminal interface ([run_terminal_chat], main.py) *)

(** [str.lower()] on code points below 256: the letters A to Z and the
    accented capitals 0xC0 to 0xDE (0xD7, the multiplication sign, apart)
    move up by 32. *)
Definition lower_char (c : ascii) : ascii :=
  let n := nat_of_ascii c in
  if ((65 <=? n) && (n <=? 90) || (192 <=? n) && (n <=? 214)
      || (216 <=? n) && (n <=? 222))%nat
  then ascii_of_nat (n + 32)
  else c.

Fixpoint lower (s : string) : string :=
  match s with
  | EmptyString => EmptyString
  | String c r => String (lower_char c) (lower r)
  end.

(** The session selection: [existing_threads] is the result of the query,
    [choice] what [int(input(...))] returns, [None] when it raises
    [ValueError]. The result is the thread to resume, if any. *)
Definition choose_thread (existing_threads : list string) (choice : option Z)
    : option string :=
  match existing_threads with
  | [] => None
  | _ :: _ =>
      match choice with
      | None => None
      | Some c =>
          if (1 <=? c) && (c <=? Z.of_nat (length existing_threads))
          then nth_error existing_threads (Z.to_nat (c - 1))
          else None
      end
  end.

Inductive turn_outcome : Type :=
| goodbye               (* the loop ends on an exit word *)
| skipped               (* blank input: next iteration *)
| replied               (* the graph ran to its end *)
| crashed (e : exn).    (* an exception was printed, the loop ends *)

Section Terminal.

Variable uuid4 : nat -> string.
Variable llm : nat -> list BaseMessage -> option (string * py_id).

(** The new session of the terminal: its state is initialized with the
    [messages] key only. *)
Definition terminal_new_session (store : gmap string AgentState)
    : M (string * gmap string AgentState) :=
  let* thread_id := new_uuid uuid4 in
  let* system_message :=
    ensure_message_has_id uuid4 (SystemMessage DEFAULT_SYSTEM_PROMPT) in
  let* store' :=
    update_state uuid4 store thread_id (mkUpdate (Some [system_message]) None None) in
  ret (thread_id, store').

(** The session selection followed by [if not thread_id:]. *)
Definition start_terminal_session (existing_threads : list string) (choice : option Z)
    (store : gmap string AgentState) : M (string * gmap string AgentState) :=
  let thread_id := choose_thread existing_threads choice in
  match thread_id with
  | Some t => if truthy_str t then ret (t, store) else terminal_new_session store
  | None => terminal_new_session store
  end.

(** One iteration of the chat loop on the line [user_input]. *)
Definition terminal_turn (store : gmap string AgentState) (thread_id user_input : string)
    : World -> (turn_outcome * gmap string AgentState) * World :=
  fun w =>
    if existsb (String.eqb (lower user_input)) ["exit"; "quit"; "bye"]
    then ((goodbye, store), w)
    else if negb (truthy_str (strip user_input))
    then ((skipped, store), w)
    else
      match ensure_message_has_id uuid4 (HumanMessage user_input) w with
      | (Raise e, w0) => ((crashed e, store), w0)
      | (Ok human_message, w0) =>
          let inputs := mkUpdate (Some [human_message]) None None in
          let '(r, w1) := graph_stream uuid4 llm (get_state store thread_id) inputs w0 in
          ((match status r with failed e => crashed e | _ => replied end,
            <[thread_id := saved r]> store), w1)
      end.

(** X14: The selection resumes a thread only for a choice between 1 and the
    number of listed threads, and then the thread at that position of the
    list; every such choice finds its thread (the index is never out of
    range), and every other choice, or a line that is no number, resumes
    nothing. *)
Theorem choose_thread_bounds (existing_threads : list string) (choice : option Z) :
  match choose_thread existing_threads choice with
  | Some t =>
      In t existing_threads
      /\ exists c, choice = Some c
                   /\ 1 <= c <= Z.of_nat (length existing_threads)
                   /\ nth_error existing_threads (Z.to_nat (c - 1)) = Some t
  | None =>
      match choice with
      | Some c => ~ (1 <= c <= Z.of_nat (length existing_threads))
      | None => True
      end
  end.
Proof.
  unfold choose_thread.
  destruct existing_threads as [|t0 ts] eqn:El.
  - destruct choice; [simpl; lia|exact I].
  - rewrite <- El. destruct choice as [c|]; [|exact I].
    destruct (Z.leb_spec 1 c) as [L1|L1];
      destruct (Z.leb_spec c (Z.of_nat (length existing_threads))) as [L2|L2];
      simpl; try lia.
    destruct (nth_error existing_threads (Z.to_nat (c - 1))) as [t|] eqn:N.
    + split; [now apply nth_error_In in N|]. exists c. repeat split; auto.
    + apply nth_error_None in N. lia.
Qed.

(** X15: A session started from the terminal when nothing is resumed gets the
    next uuid as thread id and a state with the default system prompt as
    its only turn, counter 0 and, unlike a session of the API, no summary
    key at all. *)
Theorem terminal_new_session_state
    (existing_threads : list string) (choice : option Z)
    (store : gmap string AgentState) (w : World) :
  choose_thread existing_threads choice = None ->
  store !! uuid4 (uuid_next w) = None ->
  start_terminal_session existing_threads choice store w =
  (Ok (uuid4 (uuid_next w),
       <[uuid4 (uuid_next w) :=
           mkState [mkMessage System DEFAULT_SYSTEM_PROMPT
                      (IdStr (uuid4 (S (uuid_next w))))]
             None 0]> store),
   tick_uuid (tick_uuid w)).
Proof.
  intros Hc Hfresh. unfold start_terminal_session. rewrite Hc.
  unfold terminal_new_session, update_state, get_state, bind, ret, new_uuid.
  rewrite ensure_message_has_id_spec. simpl. rewrite Hfresh. reflexivity.
Qed.

Lemma space_is_not_an_exit_word (c : ascii) (r : string) :
  is_space c = true ->
  existsb (String.eqb (String (lower_char c) r)) ["exit"; "quit"; "bye"] = false.
Proof.
  destruct c as [[] [] [] [] [] [] [] []]; intros H;
    first [discriminate H | reflexivity].
Qed.

Lemma all_space_lstrip (s : string) : all_space s = true -> lstrip s = EmptyString.
Proof.
  induction s as [|c r IH]; simpl; [reflexivity|].
  intros H. apply andb_true_iff in H as [Hc Hr]. rewrite Hc. now apply IH.
Qed.

(** X16: A line of whitespace only (or an empty line) never reaches the graph:
    the iteration is skipped, the store is left as it is, no uuid is drawn
    and the client is not called. *)
Theorem terminal_blank_line_skipped
    (store : gmap string AgentState) (thread_id user_input : string) (w : World) :
  all_space user_input = true ->
  terminal_turn store thread_id user_input w = ((skipped, store), w).
Proof.
  intros H. unfold terminal_turn.
  assert (E : existsb (String.eqb (lower user_input)) ["exit"; "quit"; "bye"] = false).
  { destruct user_input as [|c r]; [reflexivity|].
    simpl in H. apply andb_true_iff in H as [Hc _].
    simpl lower. now apply space_is_not_an_exit_word. }
  rewrite E. unfold strip. rewrite all_space_lstrip by assumption. reflexivity.
Qed.


End Terminal.

Section FirstChat.

Variable uuid4 : nat -> string.
Variable llm : nat -> list BaseMessage -> option (string * py_id).




End FirstChat.

(** * The Telegram front end (telegram_bot.py) *)

(** What the POST to /sessions/new comes to, as [get_or_create_session]
    tells the cases apart. *)
Inductive new_session_response : Type :=
| new_request_error                       (* [httpx.RequestError] *)
| new_status_error                        (* [raise_for_status()] raises *)
| new_json (thread_id : option string).   (* [session_data.get("thread_id")] *)

(** What the streamed POST to /chat/{thread_id} comes to. The text of an
    error response lies with the HTTP library: [None] when reading it
    raises. *)
Inductive chat_response : Type :=
| chat_request_error (e : string)
| chat_status_error (status_code : Z) (text : option string)
| chat_body (chunks : list string).

(** A call either returns or lets an exception escape. *)
Inductive outcome (A : Type) : Type :=
| returned (a : A)
| escaped.
Arguments returned {A} a.
Arguments escaped {A}.

(** What a handler does to the chat, in order. *)
Inductive bot_action : Type :=
| reply_text (text : string)
| send_typing.

(** [user_sessions], the actions so far, and whether an exception left the
    handler. *)
Record handled : Type := mkHandled {
  sessions_after : gmap Z string;
  actions : list bot_action;
  exception_escaped : bool
}.

(** [str(n)] for an [int]. *)
Definition str_of_int (n : Z) : string := NilEmpty.string_of_int (Z.to_int n).

Definition get_or_create_session (user_sessions : gmap Z string) (chat_id : Z)
    (response : new_session_response) : outcome (option string) * gmap Z string :=
  match user_sessions !! chat_id with
  | Some thread_id => (returned (Some thread_id), user_sessions)
  | None =>
      match response with
      | new_request_error => (returned None, user_sessions)
      | new_status_error => (escaped, user_sessions)
      | new_json None => (returned None, user_sessions)
      | new_json (Some thread_id) =>
          if truthy_str thread_id
          then (returned (Some thread_id), <[chat_id := thread_id]> user_sessions)
          else (returned None, user_sessions)
      end
  end.

(** [if thread_id:] on what [get_or_create_session] returned. *)
Definition truthy_thread (thread_id : option string) : bool :=
  match thread_id with
  | Some t => truthy_str t
  | None => false
  end.

(** The two replies that follow [get_or_create_session] in /start and
    /new. *)
Definition announce_session (thread_id : option string) : bot_action :=
  match thread_id with
  | Some t =>
      if truthy_str t
      then reply_text ("Your new chat session is ready. Session ID: `" +:+ t +:+ "`")
      else reply_text "Sorry, I couldn't start a new session for you right now."
  | None => reply_text "Sorry, I couldn't start a new session for you right now."
  end.

Definition start_command (user_sessions : gmap Z string) (chat_id : Z)
    (response : new_session_response) : handled :=
  let welcome := reply_text "Welcome to the LangGraph Chatbot! I'm ready to chat." in
  match get_or_create_session user_sessions chat_id response with
  | (returned thread_id, us) => mkHandled us [welcome; announce_session thread_id] false
  | (escaped, us) => mkHandled us [welcome] true
  end.

Definition new_command (user_sessions : gmap Z string) (chat_id : Z)
    (response : new_session_response) : handled :=
  let cleared :=
    match user_sessions !! chat_id with
    | Some _ => delete chat_id user_sessions
    | None => user_sessions
    end in
  let starting := reply_text "Starting a fresh chat session..." in
  match get_or_create_session cleared chat_id response with
  | (returned thread_id, us) => mkHandled us [starting; announce_session thread_id] false
  | (escaped, us) => mkHandled us [starting] true
  end.

Definition session_command (user_sessions : gmap Z string) (chat_id : Z) : handled :=
  match user_sessions !! chat_id with
  | Some thread_id =>
      mkHandled user_sessions
        [reply_text ("Your current session ID is: `" +:+ thread_id +:+ "`")] false
  | None =>
      mkHandled user_sessions
        [reply_text
           "You don't have an active session. Send a message or use /start to begin."]
        false
  end.

(** [full_response += chunk] over the chunks of the body. *)
Definition full_response (chunks : list string) : string :=
  fold_left String.append chunks "".

Definition handle_message (user_sessions : gmap Z string) (chat_id : Z)
    (session_response : new_session_response) (response : chat_response) : handled :=
  match get_or_create_session user_sessions chat_id session_response with
  | (escaped, us) => mkHandled us [] true
  | (returned thread_id, us) =>
      if negb (truthy_thread thread_id)
      then mkHandled us
             [reply_text
                "I'm having trouble managing our session. Please try again later."]
             false
      else
        match response with
        | chat_request_error e =>
            mkHandled us
              [send_typing;
               reply_text ("Sorry, an error occurred while talking to my brain: " +:+ e)]
              false
        | chat_status_error status_code (Some text) =>
            mkHandled us
              [send_typing;
               reply_text ("Sorry, something went wrong: " +:+ str_of_int status_code
                           +:+ " " +:+ text)]
              false
        | chat_status_error _ None => mkHandled us [send_typing] true
        | chat_body chunks =>
            if truthy_str (strip (full_response chunks))
            then mkHandled us [send_typing; reply_text (strip (full_response chunks))] false
            else mkHandled us
                   [send_typing; reply_text "I don't have a response for that."] false
        end
  end.

(** No chat is mapped to an empty thread id. *)
Definition sessions_ok (user_sessions : gmap Z string) : Prop :=
  map_Forall (fun _ t => truthy_str t = true) user_sessions.

(** X18: A chat that was given a session keeps it: the next call returns the
    same thread id from the dict, whatever a request to the API would have
    come to, and leaves the dict as it is. *)
Theorem get_or_create_session_stable
    (user_sessions us1 : gmap Z string) (chat_id : Z)
    (first second : new_session_response) (thread_id : string) :
  get_or_create_session user_sessions chat_id first = (returned (Some thread_id), us1) ->
  get_or_create_session us1 chat_id second = (returned (Some thread_id), us1).
Proof.
  unfold get_or_create_session.
  destruct (user_sessions !! chat_id) as [t|] eqn:E.
  - intros H; inversion H; subst. now rewrite E.
  - destruct first as [| |[t|]]; try discriminate.
    destruct (truthy_str t); [|discriminate].
    intros H; inversion H; subst. now rewrite lookup_insert_eq.
Qed.

(** X19: What [get_or_create_session] returns is what the dict holds for the
    chat afterwards; when it returns nothing or lets the status error
    escape, the dict is unchanged and the chat has no session. The entries
    of other chats are never touched. *)
Theorem get_or_create_session_recorded
    (user_sessions : gmap Z string) (chat_id : Z) (response : new_session_response) :
  match get_or_create_session user_sessions chat_id response with
  | (returned (Some t), us) => us !! chat_id = Some t
  | (returned None, us) => us = user_sessions /\ user_sessions !! chat_id = None
  | (escaped, us) =>
      us = user_sessions /\ user_sessions !! chat_id = None
      /\ response = new_status_error
  end
  /\ delete chat_id (snd (get_or_create_session user_sessions chat_id response))
     = delete chat_id user_sessions.
Proof.
  unfold get_or_create_session.
  destruct (user_sessions !! chat_id) as [t|] eqn:E.
  - split; [exact E|reflexivity].
  - destruct response as [| |[t|]]; simpl; try (split; [auto|reflexivity]).
    destruct (truthy_str t); simpl.
    + split; [apply lookup_insert_eq|apply delete_insert_eq].
    + split; [auto|reflexivity].
Qed.

Lemma get_or_create_session_ok
    (user_sessions : gmap Z string) (chat_id : Z) (response : new_session_response) :
  sessions_ok user_sessions ->
  sessions_ok (snd (get_or_create_session user_sessions chat_id response)).
Proof.
  unfold get_or_create_session, sessions_ok. intros H.
  destruct (user_sessions !! chat_id) as [t|]; [exact H|].
  destruct response as [| |[t|]]; simpl; try exact H.
  destruct (truthy_str t) eqn:T; simpl; [|exact H].
  now apply map_Forall_insert_2.
Qed.

(** X20: No handler ever records an empty thread id: if no chat is mapped to an
    empty id before /start, /new, /session or a message, none is
    afterwards. *)
Theorem handlers_keep_sessions_ok
    (user_sessions : gmap Z string) (chat_id : Z)
    (session_response : new_session_response) (response : chat_response) :
  sessions_ok user_sessions ->
  sessions_ok (sessions_after (start_command user_sessions chat_id session_response))
  /\ sessions_ok (sessions_after (new_command user_sessions chat_id session_response))
  /\ sessions_ok (sessions_after (session_command user_sessions chat_id))
  /\ sessions_ok
       (sessions_after (handle_message user_sessions chat_id session_response response)).
Proof.
  intros H. repeat split.
  - unfold start_command.
    pose proof (get_or_create_session_ok user_sessions chat_id session_response H) as G.
    destruct (get_or_create_session user_sessions chat_id session_response)
      as [[t|] us]; exact G.
  - unfold new_command.
    set (cleared := match user_sessions !! chat_id with
                    | Some _ => delete chat_id user_sessions
                    | None => user_sessions
                    end).
    assert (Hc : sessions_ok cleared).
    { subst cleared. destruct (user_sessions !! chat_id); [|exact H].
      now apply map_Forall_delete. }
    pose proof (get_or_create_session_ok cleared chat_id session_response Hc) as G.
    destruct (get_or_create_session cleared chat_id session_response)
      as [[t|] us]; exact G.
  - unfold session_command. destruct (user_sessions !! chat_id); exact H.
  - unfold handle_message.
    pose proof (get_or_create_session_ok user_sessions chat_id session_response H) as G.
    destruct (get_or_create_session user_sessions chat_id session_response)
      as [[t|] us]; [|exact G].
    destruct (negb (truthy_thread t)); [exact G|].
    destruct response as [e|code [text|]|chunks]; try exact G.
    destruct (truthy_str (strip (full_response chunks))); exact G.
Qed.

(** X21: /new forgets the session the chat had, whether or not a new one could
    be created: afterwards the chat has the thread id the API answered
    with, if it answered with a non-empty one, and no session otherwise. *)
Theorem new_command_replaces_session
    (user_sessions : gmap Z string) (chat_id : Z) (response : new_session_response) :
  sessions_after (new_command user_sessions chat_id response) !! chat_id
  = match response with
    | new_json (Some t) => if truthy_str t then Some t else None
    | _ => None
    end.
Proof.
  unfold new_command.
  set (cleared := match user_sessions !! chat_id with
                  | Some _ => delete chat_id user_sessions
                  | None => user_sessions
                  end).
  assert (Hc : cleared !! chat_id = None).
  { subst cleared. destruct (user_sessions !! chat_id) eqn:E;
      [apply lookup_delete_eq|exact E]. }
  unfold get_or_create_session. rewrite Hc.
  destruct response as [| |[t|]]; simpl; try exact Hc.
  destruct (truthy_str t); simpl; [apply lookup_insert_eq|exact Hc].
Qed.



(** * Evaluation of the further properties on concrete inputs *)


Definition mixed_store : gmap string AgentState := <["m" := mixed_state]> ∅.

Definition one_session : gmap Z string := <[5 := "t1"]> ∅.


Lemma compact_short_ledger_witness :
  (length (messages_to_summarize_content_from summarized_state) <= 2)%nat
  /\ delete_directives summarized_state = [].
Proof.
  assert (H : (length (messages_to_summarize_content_from summarized_state) <= 2)%nat)
    by (simpl; lia).
  split; [exact H|].
  exact (proj1 (compact_short_ledger test_uuid4 test_llm summarized_state w0
                  " ok " IdNone H eq_refl eq_refl)).
Defined.


Lemma chat_compacts_again_witness :
  9 <= messages_since_last_summary (get_state mixed_store "m")
  /\ fst (fst (chat test_uuid4 test_llm mixed_store "m" "Hi" w0))
     <> streamed ended_after_llm_caller.
Proof.
  assert (H : 9 <= messages_since_last_summary (get_state mixed_store "m"))
    by (vm_compute; discriminate).
  split; [exact H|].
  exact (chat_compacts_again test_uuid4 test_llm mixed_store "m" "Hi" w0 H).
Defined.


Lemma chat_unknown_thread_witness :
  (∅ : gmap string AgentState) !! "nobody" = None
  /\ chat test_uuid4 test_llm ∅ "nobody" "Hi" w0 = ((session_not_found, ∅), w0).
Proof.
  split; [reflexivity|].
  exact (chat_unknown_thread test_uuid4 test_llm ∅ "nobody" "Hi" w0 eq_refl).
Defined.

Lemma new_assistant_adds_session_witness :
  (∅ : gmap string AgentState) !! test_uuid4 (uuid_next w0) = None
  /\ exists store' w',
       new_assistant test_uuid4 "You are terse." ∅ w0
       = (Ok (test_uuid4 (uuid_next w0), store'), w')
       /\ list_sessions (db_checkpoints store')
          = {[test_uuid4 (uuid_next w0)]} ∪ list_sessions (db_checkpoints ∅)
       /\ delete (test_uuid4 (uuid_next w0)) store' = ∅
       /\ llm_next w' = llm_next w0.
Proof.
  split; [reflexivity|].
  exact (new_assistant_adds_session test_uuid4 "You are terse." ∅ w0 eq_refl).
Defined.


Lemma terminal_new_session_state_witness :
  choose_thread [] None = None
  /\ start_terminal_session test_uuid4 [] None ∅ w0
     = (Ok (test_uuid4 0,
            <[test_uuid4 0 :=
                mkState [mkMessage System DEFAULT_SYSTEM_PROMPT (IdStr (test_uuid4 1))]
                  None 0]> ∅),
        mkWorld 2 0).
Proof.
  split; [reflexivity|].
  exact (terminal_new_session_state test_uuid4 [] None ∅ w0 eq_refl eq_refl).
Defined.

Lemma terminal_blank_line_skipped_witness :
  all_space "  " = true
  /\ terminal_turn test_uuid4 test_llm terse_store (test_uuid4 0) "  " terse_world
     = ((skipped, terse_store), terse_world).
Proof.
  split; [reflexivity|].
  exact (terminal_blank_line_skipped test_uuid4 test_llm terse_store (test_uuid4 0)
           "  " terse_world eq_refl).
Defined.


Lemma get_or_create_session_stable_witness :
  get_or_create_session ∅ 5 (new_json (Some "t1")) = (returned (Some "t1"), one_session)
  /\ get_or_create_session one_session 5 new_status_error
     = (returned (Some "t1"), one_session).
Proof.
  assert (H : get_or_create_session ∅ 5 (new_json (Some "t1"))
              = (returned (Some "t1"), one_session)) by reflexivity.
  split; [exact H|].
  exact (get_or_create_session_stable ∅ one_session 5 (new_json (Some "t1"))
           new_status_error "t1" H).
Defined.

Lemma handlers_keep_sessions_ok_witness :
  sessions_ok one_session
  /\ sessions_ok (sessions_after (new_command one_session 5 (new_json (Some "t2")))).
Proof.
  assert (H : sessions_ok one_session).
  { apply map_Forall_insert_2; [reflexivity|apply map_Forall_empty]. }
  split; [exact H|].
  exact (proj1 (proj2 (handlers_keep_sessions_ok one_session 5 (new_json (Some "t2"))
                         (chat_body []) H))).
Defined.


Lemma filter_twice {A : Type} (f : A -> bool) (l : list A) :
  List.filter f (List.filter f l) = List.filter f l.
Proof.
  induction l as [|x r IH]; simpl; [reflexivity|].
  destruct (f x) eqn:E; simpl; [rewrite E; now f_equal|exact IH].
Qed.

(** X23: The fold prompt and the delete directives depend only on the summary
    and on the turns of class human, AI or system: turns of any other class
    can be taken out of the ledger, and the counter changed at will,
    without changing either. *)
Theorem summarizer_ignores_other_turns (st : AgentState) (n : Z) :
  let st' := mkState (List.filter is_summarizable (messages st)) (summary st) n in
  full_prompt st' = full_prompt st
  /\ delete_directives st' = delete_directives st.
Proof.
  intros st'.
  assert (E : messages_to_summarize_content_from st'
              = messages_to_summarize_content_from st).
  { unfold messages_to_summarize_content_from. subst st'. cbn [messages].
    apply filter_twice. }
  split.
  - unfold full_prompt. rewrite E. reflexivity.
  - unfold delete_directives, messages_to_remove. rewrite E. reflexivity.
Qed.
